(** * COVID-19 dashboard: the data pipeline of [app.py]

    A shallow embedding of the aggregation, filtering and ranking code of
    [src/app.py], and the properties of it that the specification states.

    Conventions of the embedding.
    - A pandas [DataFrame] is the list of its rows in frame order, each row
      paired with its index label; selecting rows keeps their labels, as
      pandas does.
    - The numeric columns hold counts, read here as integers ([Z]); a date
      is the ordinal of its calendar day ([Z]), so that [.dt.date] is the
      identity and [timedelta(days=1)] subtracts one; [NaT] is [None].
    - A ratio of two columns is an exact rational, extended with the two
      infinities and [NaN] that a division by zero produces.
    - A Python call either returns a value or raises an exception. *)

From Stdlib Require Import String List ZArith QArith Bool Lia Sorted
  Permutation Arith.
From Stdlib Require OrderedTypeEx.
Import ListNotations.

Local Open Scope string_scope.
Local Open Scope Z_scope.

(** * The pandas operations the code calls *)

Module Pandas.

(** Exceptions: [KeyError] and [TypeError] are the ones pandas raises on the
    paths modelled below; the other three are the error names of the
    specification's taxonomy, which no line of the source raises. *)
Inductive exn : Type :=
| KeyError (key : string)
| TypeError
| DataUnavailable
| EmptyDataset
| InvalidMetric.

Inductive outcome (A : Type) : Type :=
| Returned (a : A)
| Raised (e : exn).

Arguments Returned {A} a.
Arguments Raised {A} e.

(** [s[mask]]: boolean indexing; masks are built from the indexed frame and
    so have its length. *)
Fixpoint select {A : Type} (s : list A) (mask : list bool) : list A :=
  match s, mask with
  | x :: s', b :: mask' =>
      if b then x :: select s' mask' else select s' mask'
  | _, _ => []
  end.

(** [m1 & m2] on boolean series. *)
Fixpoint mask_and (m1 m2 : list bool) : list bool :=
  match m1, m2 with
  | a :: m1', b :: m2' => (a && b) :: mask_and m1' m2'
  | _, _ => []
  end.

(** [s.sum()]: the empty sum is [0]. *)
Definition series_sum (s : list Z) : Z := fold_left Z.add s 0.

(** [s.max()] on a datetime series: [NaT] when the series is empty. *)
Definition series_max (s : list Z) : option Z :=
  match s with
  | [] => None
  | x :: s' => Some (fold_left Z.max s' x)
  end.

(** [s == d] against a scalar date; every comparison with [NaT] is false. *)
Definition eq_scalar (s : list Z) (d : option Z) : list bool :=
  map (fun x => match d with Some v => x =? v | None => false end) s.

(** [s.isin(values)]. *)
Definition isin (s : list string) (values : list string) : list bool :=
  map (fun x => existsb (String.eqb x) values) s.

(** Cells of a float column computed as a ratio. *)
Inductive xreal : Type :=
| NaN
| NegInf
| Fin (q : Q)
| PosInf.

(** [a / b] of two count cells: a zero divisor gives [NaN] or an infinity.
    Finite values are kept in lowest terms. *)
Definition xdiv (a b : Z) : xreal :=
  if b =? 0 then
    if a =? 0 then NaN else if 0 <? a then PosInf else NegInf
  else Fin (Qred (inject_Z a / inject_Z b)).

(** [x * k] for a positive constant [k]. *)
Definition xscale (x : xreal) (k : positive) : xreal :=
  match x with
  | Fin q => Fin (Qred (q * inject_Z (Z.pos k)))
  | other => other
  end.

Definition is_nan (x : xreal) : bool :=
  match x with NaN => true | _ => false end.

Definition xrank (x : xreal) : nat :=
  match x with NaN => 0 | NegInf => 1 | Fin _ => 2 | PosInf => 3 end.

(** Strict order used to rank cells: [nlargest] puts [NaN] after every
    number, so [NaN] ranks lowest. *)
Definition xltb (a b : xreal) : bool :=
  match a, b with
  | Fin p, Fin q => negb (Qle_bool q p)
  | _, _ => (xrank a <? xrank b)%nat
  end.

(** [df.nlargest(n, column)] with the default [keep='first']: the first [n]
    rows in descending order of the column, rows with equal values in
    frame order.  [ltb] is the strict order of the column's cells. *)
Section NLargest.
Context {A K : Type} (ltb : K -> K -> bool) (key : A -> K).

(** [insert_desc x l] puts [x], which precedes every row of [l] in the
    frame, in front of the first row whose key is not larger. *)
Fixpoint insert_desc (x : A) (l : list A) : list A :=
  match l with
  | [] => [x]
  | y :: l' =>
      if ltb (key x) (key y) then y :: insert_desc x l' else x :: y :: l'
  end.

Definition sort_desc (l : list A) : list A := fold_right insert_desc [] l.

Definition nlargest (n : Z) (l : list A) : list A :=
  if n <=? 0 then [] else firstn (Z.to_nat n) (sort_desc l).
End NLargest.

(** [df.groupby(column)] with the default [sort=True]: the group keys are
    the distinct values of the column in ascending order. *)
Fixpoint insert_key (d : Z) (keys : list Z) : list Z :=
  match keys with
  | [] => [d]
  | k :: keys' =>
      if d <? k then d :: k :: keys'
      else if d =? k then k :: keys'
      else k :: insert_key d keys'
  end.

Definition group_keys (s : list Z) : list Z :=
  fold_left (fun keys d => insert_key d keys) s [].

Definition groupby {A : Type} (key : A -> Z) (df : list A)
  : list (Z * list A) :=
  map (fun k => (k, select df (map (fun r => key r =? k) df)))
      (group_keys (map key df)).

End Pandas.

Import Pandas.

(** * Data model *)

(** One observation: the columns of the dataset that the code refers to. *)
Record Row : Type := mkRow {
  country : string;
  date : Z;
  total_cases : Z;
  total_deaths : Z;
  total_vaccinations : Z;
  new_cases : Z;
  new_deaths : Z
}.

(** A frame: rows in order, each with its index label. *)
Definition DataFrame : Type := list (nat * Row).

(** The frame of a list of rows, labelled by position. *)
Definition DataFrame_of (rows : list Row) : DataFrame :=
  combine (seq 0 (length rows)) rows.

(** [df[c]] for a column [c]. *)
Definition col {V : Type} (c : Row -> V) (df : DataFrame) : list V :=
  map (fun ir => c (snd ir)) df.

(** Column names and their dtypes. *)
Inductive column : Type :=
| Country | Date | TotalCases | TotalDeaths | TotalVaccinations
| NewCases | NewDeaths.

Definition column_of_name (name : string) : option column :=
  if String.eqb name "country" then Some Country
  else if String.eqb name "date" then Some Date
  else if String.eqb name "total_cases" then Some TotalCases
  else if String.eqb name "total_deaths" then Some TotalDeaths
  else if String.eqb name "total_vaccinations" then Some TotalVaccinations
  else if String.eqb name "new_cases" then Some NewCases
  else if String.eqb name "new_deaths" then Some NewDeaths
  else None.

(** The cells of a column that [nlargest] accepts: every dtype but
    [object], which is the dtype of [country]. *)
Definition ordered_cells (c : column) : option (Row -> Z) :=
  match c with
  | Country => None
  | Date => Some date
  | TotalCases => Some total_cases
  | TotalDeaths => Some total_deaths
  | TotalVaccinations => Some total_vaccinations
  | NewCases => Some new_cases
  | NewDeaths => Some new_deaths
  end.

(** * The functions of [app.py] *)

(** ** [calculate_global_stats] *)

Module Stats.
Record t : Type := mk {
  total_cases : Z;
  total_deaths : Z;
  total_vaccinations : Z;
  new_cases : Z;
  new_deaths : Z;
  latest_date : option Z
}.
End Stats.

Definition calculate_global_stats (df : DataFrame) : outcome Stats.t :=
  let latest_date := series_max (col date df) in
  let latest_data := select df (eq_scalar (col date df) latest_date) in
  let total_cases' := series_sum (col total_cases latest_data) in
  let total_deaths' := series_sum (col total_deaths latest_data) in
  let total_vaccinations' := series_sum (col total_vaccinations latest_data) in
  let prev_date := option_map (fun d => d - 1) latest_date in
  let prev_data := select df (eq_scalar (col date df) prev_date) in
  let new_cases' := series_sum (col new_cases latest_data) in
  let new_deaths' := series_sum (col new_deaths latest_data) in
  Returned (Stats.mk total_cases' total_deaths' total_vaccinations'
                     new_cases' new_deaths' latest_date).

(** ** [create_global_trend_chart]

    The chart is drawn from [global_daily], the frame returned here. *)

Module Daily.
Record t : Type := mk {
  date : Z;
  new_cases : Z;
  new_deaths : Z;
  total_cases : Z;
  total_deaths : Z
}.
End Daily.

Definition create_global_trend_chart (df : DataFrame) : list Daily.t :=
  map (fun g : Z * DataFrame =>
         Daily.mk (fst g)
                  (series_sum (col new_cases (snd g)))
                  (series_sum (col new_deaths (snd g)))
                  (series_sum (col total_cases (snd g)))
                  (series_sum (col total_deaths (snd g))))
      (groupby (fun ir : nat * Row => date (snd ir)) df).

(** ** Filtering: [main] and [create_country_comparison_chart] *)

(** [df_filtered] of [main]: the date input yields a pair once both ends
    are chosen; otherwise the frame is left as it is. *)
Definition df_filtered (df : DataFrame) (date_range : list Z) : DataFrame :=
  match date_range with
  | [start_date; end_date] =>
      select df (mask_and (map (fun d => d >=? start_date) (col date df))
                          (map (fun d => d <=? end_date) (col date df)))
  | _ => df
  end.

(** [country_data], the frame that the comparison chart plots; [metric]
    only names the plotted column. *)
Definition create_country_comparison_chart
  (df : DataFrame) (countries : list string) (metric : string) : DataFrame :=
  select df (isin (col country df) countries).

(** The view [main] derives from the controls: the comparison chart is built
    from [df_filtered] only [if selected_countries:], and with no selection
    the date-filtered frame is the whole view. *)
Definition filtered_view (df : DataFrame) (date_range : list Z)
  (selected_countries : list string) (selected_metric : string) : DataFrame :=
  match selected_countries with
  | [] => df_filtered df date_range
  | _ :: _ =>
      create_country_comparison_chart (df_filtered df date_range)
                                      selected_countries selected_metric
  end.

(** ** [create_top_countries_chart]

    The chart is drawn from [top_countries]: index label, country, value. *)

Definition default_top_n : Z := 15.

Definition create_top_countries_chart
  (df : DataFrame) (metric : string) (top_n : Z)
  : outcome (list (nat * (string * Z))) :=
  let latest_date := series_max (col date df) in
  let latest_data := select df (eq_scalar (col date df) latest_date) in
  match column_of_name metric with
  | None => Raised (KeyError metric)
  | Some c =>
      match ordered_cells c with
      | None => Raised TypeError
      | Some cells =>
          Returned
            (map (fun ir : nat * Row => (fst ir, (country (snd ir), cells (snd ir))))
                 (nlargest Z.ltb (fun ir : nat * Row => cells (snd ir))
                           top_n latest_data))
      end
  end.

(** ** [create_vaccination_chart]

    [None] is the Python [None]; otherwise the chart is drawn from
    [top_vacc]. *)

Definition create_vaccination_chart (df : DataFrame) : option DataFrame :=
  let vacc_data := select df (map (fun v => v >? 0) (col total_vaccinations df)) in
  match vacc_data with
  | [] => None
  | _ :: _ =>
      let latest_date := series_max (col date vacc_data) in
      let latest_vacc :=
        select vacc_data (eq_scalar (col date vacc_data) latest_date) in
      Some (nlargest Z.ltb (fun ir : nat * Row => total_vaccinations (snd ir))
                     20 latest_vacc)
  end.

(** ** [create_case_fatality_rate_chart]

    The chart is drawn from [top_cfr]: the rows with their [cfr] cell. *)

Definition cfr_of (ir : nat * Row) : xreal :=
  xscale (xdiv (total_deaths (snd ir)) (total_cases (snd ir))) 100.

Definition create_case_fatality_rate_chart (df : DataFrame)
  : list ((nat * Row) * xreal) :=
  let latest_date := series_max (col date df) in
  let latest_data := select df (eq_scalar (col date df) latest_date) in
  let latest_data :=
    select latest_data (map (fun c => c >? 1000) (col total_cases latest_data)) in
  let latest_data := map (fun ir => (ir, cfr_of ir)) latest_data in
  let latest_data :=
    select latest_data (map (fun x => negb (is_nan (snd x))) latest_data) in
  nlargest xltb snd 20 latest_data.

(** ** [load_data]

    A row as [pd.read_csv] and [pd.to_datetime] deliver it: a numeric cell
    the file leaves empty is NaN, here [None]. *)
Record RawRow : Type := mkRaw {
  raw_country : string;
  raw_date : Z;
  raw_total_cases : option Z;
  raw_total_deaths : option Z;
  raw_total_vaccinations : option Z;
  raw_new_cases : option Z;
  raw_new_deaths : option Z
}.

(** Strict lexicographic order of the sort keys [(country, date)]; strings
    compare character by character, as Python's do. *)
Definition key_ltb (k1 k2 : string * Z) : bool :=
  match String.compare (fst k1) (fst k2) with
  | Lt => true
  | Eq => snd k1 <? snd k2
  | Gt => false
  end.

(** [df.sort_values(by)] on several columns: ascending, rows with equal
    keys in frame order.  It is the descending insertion of [nlargest] with
    the order of the cells turned around. *)
Definition sort_values {A K : Type} (ltb : K -> K -> bool) (key : A -> K)
  (df : list A) : list A :=
  sort_desc (fun a b => ltb b a) key df.

(** [fillna(0)] on a numeric cell and on the numeric columns of a row. *)
Definition fillna (v : option Z) : Z :=
  match v with Some x => x | None => 0 end.

Definition fill_row (r : RawRow) : Row :=
  mkRow (raw_country r) (raw_date r)
        (fillna (raw_total_cases r)) (fillna (raw_total_deaths r))
        (fillna (raw_total_vaccinations r))
        (fillna (raw_new_cases r)) (fillna (raw_new_deaths r)).

Definition raw_key (ir : nat * RawRow) : string * Z :=
  (raw_country (snd ir), raw_date (snd ir)).

(** [read_csv] is the outcome of fetching and parsing the file, dates
    converted; any exception of the [try] block makes the loader return
    Python's [None].  The parsed rows are labelled by position. *)
Definition load_data (read_csv : outcome (list RawRow)) : option DataFrame :=
  match read_csv with
  | Raised _ => None
  | Returned rows =>
      let df := combine (seq 0 (length rows)) rows in
      let df := sort_values key_ltb raw_key df in
      Some (map (fun ir : nat * RawRow => (fst ir, fill_row (snd ir))) df)
  end.

(** ** The controls of [main] *)

(** [s.unique()]: the values in order of first appearance. *)
Fixpoint unique_seen (seen s : list string) : list string :=
  match s with
  | [] => []
  | x :: s' =>
      if existsb (String.eqb x) seen then unique_seen seen s'
      else x :: unique_seen (x :: seen) s'
  end.

Definition unique (s : list string) : list string := unique_seen [] s.

(** Python's [sorted] on strings. *)
Definition sorted (s : list string) : list string :=
  sort_values String.ltb (fun x : string => x) s.

(** [countries] of [main]: the options of the country selector. *)
Definition countries_of (df : DataFrame) : list string :=
  sorted (unique (col country df)).

Definition preferred_countries : list string :=
  ["United States"; "India"; "Brazil"; "Russia"; "France"].

(** The [default] of the country selector. *)
Definition default_countries (countries : list string) : list string :=
  if forallb (fun c => existsb (String.eqb c) countries) preferred_countries
  then preferred_countries
  else firstn 5 countries.


(** * Vocabulary of the specification *)

(** The rows of a frame observed on day [d]. *)
Definition rows_on (d : Z) (df : DataFrame) : DataFrame :=
  filter (fun ir => date (snd ir) =? d) df.


(** [d] is the maximum date present in the frame. *)
Definition is_latest_date (df : DataFrame) (d : Z) : Prop :=
  In d (col date df) /\ Forall (fun x => x <= d) (col date df).

(** [l1] is [l2] with some elements left out. *)
Inductive subsequence {A : Type} : list A -> list A -> Prop :=
| subseq_nil : subsequence [] []
| subseq_skip x l1 l2 : subsequence l1 l2 -> subsequence l1 (x :: l2)
| subseq_keep x l1 l2 : subsequence l1 l2 -> subsequence (x :: l1) (x :: l2).

(** The rows of the latest date: those dated no earlier than any row. *)
Definition latest_rows (df : DataFrame) : DataFrame :=
  filter (fun ir => forallb (fun x => x <=? date (snd ir)) (col date df)) df.


(** Ranking order of rows by a key column, and frame order by label. *)
Section RankingOrder.
Context {A K : Type} (ltb : K -> K -> bool) (key : A -> K)
        (label : A -> nat).

(** [x] ranks at least as high as [y]. *)
Definition not_below (x y : A) : Prop := ltb (key x) (key y) = false.

Definition label_lt (x y : A) : Prop := (label x < label y)%nat.

(** [x] ranks strictly above [y], or they tie and [x] comes first. *)
Definition ranks_before (x y : A) : Prop :=
  ltb (key y) (key x) = true \/
  (ltb (key x) (key y) = false /\ label_lt x y).
End RankingOrder.

(** The rows a date interval and a country selection ask for; an empty
    selection asks for every country. *)
Definition in_view (start_date end_date : Z) (selected : list string)
  (ir : nat * Row) : bool :=
  (start_date <=? date (snd ir)) && (date (snd ir) <=? end_date)
  && match selected with
     | [] => true
     | _ :: _ =>
         if in_dec string_dec (country (snd ir)) selected then true else false
     end.

(** A frame that breaks the key invariant: one country twice on one day. *)
Definition duplicated_df : DataFrame :=
  DataFrame_of [mkRow "Brazil" 1 900 10 0 40 1; mkRow "Brazil" 1 950 12 0 50 2].

(** A small Dataset: two countries over two days, a third on the second. *)
Definition sample_rows : list Row :=
  [ mkRow "Brazil" 1 900 10 0 40 1;
    mkRow "Brazil" 2 1500 30 0 600 20;
    mkRow "France" 1 2000 30 100 50 2;
    mkRow "France" 2 2500 50 0 500 20;
    mkRow "India" 2 4000 30 0 70 3 ].

Definition sample_df : DataFrame := DataFrame_of sample_rows.

(** The Dataset invariant of the data model: one row per (country, date). *)
Definition unique_keys (df : DataFrame) : Prop :=
  NoDup (map (fun ir : nat * Row => (country (snd ir), date (snd ir))) df).

(** The countries present in a frame, each listed once. *)
Definition distinct_countries (df : DataFrame) : list string :=
  nodup string_dec (col country df).

(** The order of the sort keys: by country, then by date. *)
Definition key_le (k1 k2 : string * Z) : Prop :=
  String.compare (fst k1) (fst k2) = Lt \/
  (fst k1 = fst k2 /\ snd k1 <= snd k2).

Definition key_lt (k1 k2 : string * Z) : Prop :=
  String.compare (fst k1) (fst k2) = Lt \/
  (fst k1 = fst k2 /\ snd k1 < snd k2).

Definition row_key (ir : nat * Row) : string * Z :=
  (country (snd ir), date (snd ir)).

(** A loaded row read again: every numeric cell is present. *)
Definition reread (r : Row) : RawRow :=
  mkRaw (country r) (date r) (Some (total_cases r)) (Some (total_deaths r))
        (Some (total_vaccinations r)) (Some (new_cases r))
        (Some (new_deaths r)).



(** [f] applied to what a call returns; an exception passes through. *)
Definition outcome_map {A B : Type} (f : A -> B) (o : outcome A) : outcome B :=
  match o with
  | Returned a => Returned (f a)
  | Raised e => Raised e
  end.

(** Parsed rows: one with an empty [new_deaths] cell, listed out of order. *)
Definition sample_raw : list RawRow :=
  [ mkRaw "India" 2 (Some 4000) (Some 30) None (Some 70) (Some 3);
    mkRaw "Brazil" 2 (Some 1500) (Some 30) None (Some 600) None;
    mkRaw "Brazil" 1 (Some 900) (Some 10) None (Some 40) (Some 1) ].

(** * Facts about the pandas operations *)

Section SelectFacts.
Context {A : Type}.

Lemma select_map (f : A -> bool) (s : list A) :
  select s (map f s) = filter f s.
Proof.
  induction s as [|x s IH]; simpl; [reflexivity|].
  rewrite IH. reflexivity.
Qed.

Lemma mask_and_map (f g : A -> bool) (s : list A) :
  mask_and (map f s) (map g s) = map (fun x => f x && g x) s.
Proof.
  induction s as [|x s IH]; simpl; congruence.
Qed.

Lemma filter_subsequence (f : A -> bool) (s : list A) :
  subsequence (filter f s) s.
Proof.
  induction s as [|x s IH]; simpl.
  - constructor.
  - destruct (f x); constructor; assumption.
Qed.

Lemma subsequence_trans (l1 l2 l3 : list A) :
  subsequence l1 l2 -> subsequence l2 l3 -> subsequence l1 l3.
Proof.
  intros H12 H23. revert l1 H12.
  induction H23 as [|x l2 l3 H IH|x l2 l3 H IH]; intros l1 H12.
  - assumption.
  - constructor. apply IH. assumption.
  - inversion H12; subst.
    + constructor. apply IH. assumption.
    + apply subseq_keep. apply IH. assumption.
Qed.

Lemma subsequence_refl (l : list A) : subsequence l l.
Proof. induction l; constructor; assumption. Qed.
End SelectFacts.

Lemma eq_scalar_col (df : DataFrame) (d : Z) :
  eq_scalar (col date df) (Some d) = map (fun ir => date (snd ir) =? d) df.
Proof. unfold eq_scalar, col. rewrite map_map. reflexivity. Qed.

(** Rows selected by comparing the date column with a date. *)
Lemma select_on_date (df : DataFrame) (d : Z) :
  select df (eq_scalar (col date df) (Some d)) = rows_on d df.
Proof. rewrite eq_scalar_col. apply select_map. Qed.



Lemma fold_left_max_spec (s : list Z) (a : Z) :
  let m := fold_left Z.max s a in
  (m = a \/ In m s) /\ a <= m /\ Forall (fun x => x <= m) s.
Proof.
  revert a. induction s as [|x s IH]; intro a; simpl.
  - repeat split; [left; reflexivity | lia | constructor].
  - destruct (IH (Z.max a x)) as [Hin [Hle Hall]].
    repeat split.
    + destruct Hin as [Hin|Hin]; [|right; right; exact Hin].
      rewrite Hin.
      destruct (Z.max_spec a x) as [[_ E]|[_ E]]; rewrite E.
      * right; left; reflexivity.
      * left; reflexivity.
    + lia.
    + constructor; [lia | exact Hall].
Qed.

Lemma series_max_spec (s : list Z) (d : Z) :
  series_max s = Some d -> In d s /\ Forall (fun x => x <= d) s.
Proof.
  destruct s as [|x s]; simpl; [discriminate|].
  intro H. injection H as <-.
  destruct (fold_left_max_spec s x) as [Hin [Hle Hall]].
  split.
  - destruct Hin as [->|Hin]; [left; reflexivity | right; exact Hin].
  - constructor; assumption.
Qed.

Lemma series_max_nonempty (s : list Z) :
  s <> [] -> exists d, series_max s = Some d.
Proof.
  destruct s as [|x s]; [congruence|]. intros _. simpl. eauto.
Qed.

Lemma series_max_empty (s : list Z) :
  series_max s = None <-> s = [].
Proof.
  destruct s; simpl; split; congruence.
Qed.

(** * Global snapshot *)

(** C1, as the code has it: on a frame with zero rows
    [calculate_global_stats] returns normally; every sum of the snapshot is
    zero and its latest date is [NaT]. *)
Theorem calculate_global_stats_empty :
  calculate_global_stats [] = Returned (Stats.mk 0 0 0 0 0 None).
Proof. reflexivity. Qed.

(** C1, as the specification words it, fails: the call on the empty frame
    does not raise [EmptyDataset]. *)
Lemma calculate_global_stats_empty_not_raised :
  calculate_global_stats [] <> Raised EmptyDataset.
Proof. unfold calculate_global_stats. simpl. discriminate. Qed.


(** * Ranking with [nlargest] *)

Lemma In_firstn {A : Type} (n : nat) (l : list A) (x : A) :
  In x (firstn n l) -> In x l.
Proof.
  intro H. rewrite <- (firstn_skipn n l). apply in_or_app. left. exact H.
Qed.

Section StronglySortedFacts.
Context {A : Type} (R : A -> A -> Prop).

Lemma StronglySorted_firstn (n : nat) (l : list A) :
  StronglySorted R l -> StronglySorted R (firstn n l).
Proof.
  intro H. revert n.
  induction H as [|x l Hs IH Hall]; intro n.
  - rewrite firstn_nil. constructor.
  - destruct n as [|n]; simpl; constructor.
    + apply IH.
    + rewrite Forall_forall in *. intros y Hy.
      apply Hall. eapply In_firstn. exact Hy.
Qed.


Lemma StronglySorted_nth_error (l : list A) :
  StronglySorted R l ->
  forall i j a b, (i < j)%nat ->
    nth_error l i = Some a -> nth_error l j = Some b -> R a b.
Proof.
  induction 1 as [|x l Hs IH Hall]; intros i j a b Hij Ha Hb.
  - destruct i; discriminate.
  - destruct j as [|j]; [lia|]. simpl in Hb.
    destruct i as [|i]; simpl in Ha.
    + injection Ha as <-. rewrite Forall_forall in Hall.
      apply Hall. eapply nth_error_In. exact Hb.
    + apply (IH i j); [lia | assumption | assumption].
Qed.

Lemma StronglySorted_app_cross (l1 l2 : list A) :
  StronglySorted R (l1 ++ l2) ->
  forall a b, In a l1 -> In b l2 -> R a b.
Proof.
  induction l1 as [|x l1 IH]; simpl; intros H a b Ha Hb; [contradiction|].
  apply StronglySorted_inv in H. destruct H as [Hs Hall].
  destruct Ha as [<-|Ha].
  - rewrite Forall_forall in Hall. apply Hall.
    apply in_or_app. right. exact Hb.
  - apply IH; assumption.
Qed.
End StronglySortedFacts.

Section NLargestFacts.
Context {A K : Type} (ltb : K -> K -> bool) (key : A -> K).

(** The cells are totally pre-ordered by [ltb]. *)
Hypothesis ltb_asym : forall a b, ltb a b = true -> ltb b a = false.
Hypothesis ltb_negtrans :
  forall a b c, ltb a b = false -> ltb b c = false -> ltb a c = false.

Lemma insert_desc_perm (x : A) (l : list A) :
  Permutation (insert_desc ltb key x l) (x :: l).
Proof.
  induction l as [|y l IH]; simpl; [reflexivity|].
  destruct (ltb (key x) (key y)); [|reflexivity].
  rewrite IH. apply perm_swap.
Qed.

Lemma sort_desc_perm (l : list A) : Permutation (sort_desc ltb key l) l.
Proof.
  induction l as [|x l IH]; simpl; [reflexivity|].
  rewrite insert_desc_perm. constructor. exact IH.
Qed.

Lemma insert_desc_sorted (x : A) (l : list A) :
  StronglySorted (not_below ltb key) l ->
  StronglySorted (not_below ltb key) (insert_desc ltb key x l).
Proof.
  induction 1 as [|y l Hs IH Hall]; simpl.
  - repeat constructor.
  - destruct (ltb (key x) (key y)) eqn:E.
    + constructor; [exact IH|].
      rewrite (insert_desc_perm x l). constructor; [|exact Hall].
      apply ltb_asym. exact E.
    + constructor; [constructor; assumption|].
      constructor; [exact E|].
      rewrite Forall_forall in *. intros z Hz.
      apply (ltb_negtrans _ (key y)); [exact E | apply Hall; exact Hz].
Qed.

Lemma sort_desc_sorted (l : list A) :
  StronglySorted (not_below ltb key) (sort_desc ltb key l).
Proof.
  induction l as [|x l IH]; simpl; [constructor|].
  apply insert_desc_sorted. exact IH.
Qed.

Lemma nlargest_incl (n : Z) (l : list A) (x : A) :
  In x (nlargest ltb key n l) -> In x l.
Proof.
  unfold nlargest. destruct (n <=? 0); [contradiction|].
  intro H. apply In_firstn in H.
  eapply Permutation_in; [apply sort_desc_perm | exact H].
Qed.

Lemma nlargest_sorted (n : Z) (l : list A) :
  StronglySorted (not_below ltb key) (nlargest ltb key n l).
Proof.
  unfold nlargest. destruct (n <=? 0); [constructor|].
  apply StronglySorted_firstn, sort_desc_sorted.
Qed.

Lemma nlargest_length (n : Z) (l : list A) :
  0 <= n ->
  Z.of_nat (length (nlargest ltb key n l)) = Z.min n (Z.of_nat (length l)).
Proof.
  intro Hn. unfold nlargest.
  destruct (Z.leb_spec n 0); simpl; [lia|].
  rewrite length_firstn, (Permutation_length (sort_desc_perm l)). lia.
Qed.

(** A row that is left out ranks no higher than any row that is kept. *)
Lemma nlargest_top (n : Z) (l : list A) (x y : A) :
  0 < n -> In x (nlargest ltb key n l) -> In y l ->
  ~ In y (nlargest ltb key n l) -> not_below ltb key x y.
Proof.
  unfold nlargest. intros Hn Hx Hy Hny.
  destruct (Z.leb_spec n 0); [lia|].
  pose proof (sort_desc_sorted l) as Hs.
  rewrite <- (firstn_skipn (Z.to_nat n) (sort_desc ltb key l)) in Hs.
  apply (StronglySorted_app_cross _ _ _ Hs); [exact Hx|].
  apply (Permutation_in _ (Permutation_sym (sort_desc_perm l))) in Hy.
  rewrite <- (firstn_skipn (Z.to_nat n) (sort_desc ltb key l)) in Hy.
  apply in_app_or in Hy. tauto.
Qed.

(** Stability.  Rows carry a label that increases along the frame. *)
Variable label : A -> nat.

Lemma ranks_before_not_below (x y : A) :
  ranks_before ltb key label x y -> not_below ltb key x y.
Proof.
  intros [H|[H _]]; [apply ltb_asym; exact H | exact H].
Qed.

Lemma insert_desc_stable (x : A) (l : list A) :
  Forall (label_lt label x) l ->
  StronglySorted (ranks_before ltb key label) l ->
  StronglySorted (ranks_before ltb key label) (insert_desc ltb key x l).
Proof.
  intros Hlab Hs. induction Hs as [|y l Hs IH Hall]; simpl.
  - repeat constructor.
  - apply Forall_cons_iff in Hlab. destruct Hlab as [Hxy Hlab].
    destruct (ltb (key x) (key y)) eqn:E.
    + constructor; [apply IH; exact Hlab|].
      rewrite (insert_desc_perm x l). constructor; [|exact Hall].
      left. exact E.
    + constructor; [constructor; assumption|].
      constructor; [right; split; assumption|].
      rewrite Forall_forall in *. intros z Hz.
      right. split; [|apply Hlab; exact Hz].
      apply (ltb_negtrans _ (key y)); [exact E|].
      apply ranks_before_not_below, Hall, Hz.
Qed.

Lemma sort_desc_stable (l : list A) :
  StronglySorted (label_lt label) l ->
  StronglySorted (ranks_before ltb key label) (sort_desc ltb key l).
Proof.
  induction 1 as [|x l Hs IH Hall]; simpl; [constructor|].
  apply insert_desc_stable; [|exact IH].
  rewrite (sort_desc_perm l). exact Hall.
Qed.


End NLargestFacts.

(** * The rows of the latest date *)


Lemma max_is_latest_date (df : DataFrame) (d : Z) :
  series_max (col date df) = Some d -> is_latest_date df d.
Proof. intro H. exact (series_max_spec _ _ H). Qed.

Lemma latest_rows_on (df : DataFrame) (d : Z) :
  is_latest_date df d -> latest_rows df = rows_on d df.
Proof.
  intros [Hin Hall]. unfold latest_rows, rows_on.
  apply filter_ext_in. intros ir Hir.
  assert (Hle : date (snd ir) <= d).
  { rewrite Forall_forall in Hall. apply Hall.
    unfold col. apply in_map_iff. exists ir. split; [reflexivity | exact Hir]. }
  destruct (Z.eqb_spec (date (snd ir)) d) as [E|N].
  - rewrite E. apply forallb_forall. intros x Hx.
    apply Z.leb_le. rewrite Forall_forall in Hall. apply Hall. exact Hx.
  - destruct (forallb _ (col date df)) eqn:F; [|reflexivity].
    rewrite forallb_forall in F. apply F in Hin. apply Z.leb_le in Hin. lia.
Qed.

(** The selection [df[df['date'] == df['date'].max()]]. *)
Lemma select_latest (df : DataFrame) :
  select df (eq_scalar (col date df) (series_max (col date df)))
  = latest_rows df.
Proof.
  destruct (series_max (col date df)) as [d|] eqn:E.
  - rewrite select_on_date. symmetry.
    apply latest_rows_on, max_is_latest_date, E.
  - apply series_max_empty in E. destruct df; [reflexivity | discriminate].
Qed.


Lemma latest_rows_nonempty (df : DataFrame) :
  df <> [] -> latest_rows df <> [].
Proof.
  intro Hne.
  destruct (series_max_nonempty (col date df)) as [d Hd].
  { destruct df; [congruence | discriminate]. }
  apply max_is_latest_date in Hd.
  rewrite (latest_rows_on _ _ Hd). destruct Hd as [Hin _].
  unfold col in Hin. apply in_map_iff in Hin. destruct Hin as [ir [E Hir]].
  intro Hnil.
  assert (H : In ir (rows_on d df)).
  { apply filter_In. split; [exact Hir | apply Z.eqb_eq; exact E]. }
  rewrite Hnil in H. contradiction.
Qed.

(** Labels by position. *)
Lemma combine_seq_In {A : Type} (l : list A) (s i : nat) (x : A) :
  In (i, x) (combine (seq s (length l)) l) ->
  (s <= i)%nat /\ nth_error l (i - s) = Some x.
Proof.
  revert s. induction l as [|y l IH]; intros s H; simpl in H; [contradiction|].
  destruct H as [H|H].
  - injection H as <- <-. rewrite Nat.sub_diag. split; [lia | reflexivity].
  - apply IH in H. destruct H as [Hle Hn]. split; [lia|].
    replace (i - s)%nat with (S (i - S s)) by lia. exact Hn.
Qed.

Lemma combine_seq_sorted {A : Type} (l : list A) (s : nat) :
  StronglySorted (label_lt (@fst nat A)) (combine (seq s (length l)) l).
Proof.
  revert s. induction l as [|y l IH]; intro s; simpl; constructor.
  - apply IH.
  - apply Forall_forall. intros [i x] H.
    apply combine_seq_In in H. unfold label_lt. simpl. lia.
Qed.



Lemma Zltb_asym (a b : Z) : (a <? b) = true -> (b <? a) = false.
Proof. intro H. apply Z.ltb_lt in H. apply Z.ltb_ge. lia. Qed.

Lemma Zltb_negtrans (a b c : Z) :
  (a <? b) = false -> (b <? c) = false -> (a <? c) = false.
Proof. rewrite !Z.ltb_ge. lia. Qed.

(** * Order of ratio cells *)





Lemma filter_all {A : Type} (f : A -> bool) (l : list A) :
  (forall x, In x l -> f x = true) -> filter f l = l.
Proof.
  induction l as [|x l IH]; intro H; simpl; [reflexivity|].
  rewrite (H x (or_introl eq_refl)), IH; [reflexivity|].
  intros y Hy. apply H. right. exact Hy.
Qed.

Lemma filter_filter {A : Type} (f g : A -> bool) (l : list A) :
  filter f (filter g l) = filter (fun x => g x && f x) l.
Proof.
  induction l as [|x l IH]; simpl; [reflexivity|].
  destruct (g x); simpl; [destruct (f x)|]; rewrite IH; reflexivity.
Qed.

Lemma StronglySorted_map {A B : Type} (R : A -> A -> Prop)
  (S : B -> B -> Prop) (f : A -> B) (l : list A) :
  (forall x y, R x y -> S (f x) (f y)) ->
  StronglySorted R l -> StronglySorted S (map f l).
Proof.
  intros HRS. induction 1 as [|x l Hs IH Hall]; simpl; constructor.
  - exact IH.
  - rewrite Forall_forall in *. intros y Hy.
    apply in_map_iff in Hy. destruct Hy as [z [<- Hz]].
    apply HRS, Hall, Hz.
Qed.


(** * Top-N ranking *)

(** C3, as the code has it: a metric name that is not a column makes
    [create_top_countries_chart] raise pandas' [KeyError] for that name,
    whatever the frame and the bound; no result is returned. *)
Theorem create_top_countries_chart_unknown_metric
  (df : DataFrame) (metric : string) (top_n : Z)
  (Hunknown : column_of_name metric = None) :
  create_top_countries_chart df metric top_n = Raised (KeyError metric).
Proof.
  unfold create_top_countries_chart. rewrite Hunknown. reflexivity.
Qed.


Lemma rows_on_distinct_countries (df : DataFrame) (d : Z) :
  unique_keys df -> NoDup (col country (rows_on d df)).
Proof.
  unfold unique_keys.
  induction df as [|ir df IH]; simpl; intro H; [constructor|].
  apply NoDup_cons_iff in H. destruct H as [Hnotin Hnd].
  destruct (Z.eqb_spec (date (snd ir)) d) as [E|N]; [|apply IH; exact Hnd].
  simpl. constructor; [|apply IH; exact Hnd].
  intro Hin. apply Hnotin.
  unfold col in Hin. apply in_map_iff in Hin. destruct Hin as [ir' [Ec Hir']].
  apply filter_In in Hir'. destruct Hir' as [Hir' Ed].
  apply Z.eqb_eq in Ed.
  apply in_map_iff. exists ir'. split; [|exact Hir'].
  f_equal; congruence.
Qed.

Lemma latest_rows_distinct_countries (df : DataFrame) :
  unique_keys df -> distinct_countries (latest_rows df) = col country (latest_rows df).
Proof.
  intro H. unfold distinct_countries. apply nodup_fixed_point.
  destruct (series_max (col date df)) as [d|] eqn:E.
  - apply max_is_latest_date in E. rewrite (latest_rows_on _ _ E).
    apply rows_on_distinct_countries, H.
  - apply series_max_empty in E. destruct df; [constructor | discriminate].
Qed.

(** The ranking has one row per ranked frame row, up to the bound. *)
Lemma create_top_countries_chart_rows
  (df : DataFrame) (metric : string) (c : column) (cells : Row -> Z)
  (top_n : Z) :
  column_of_name metric = Some c -> ordered_cells c = Some cells ->
  0 <= top_n ->
  exists top,
    create_top_countries_chart df metric top_n = Returned top /\
    Z.of_nat (length top) = Z.min top_n (Z.of_nat (length (latest_rows df))).
Proof.
  intros Hcol Hcells Hn. unfold create_top_countries_chart.
  rewrite Hcol, Hcells, select_latest.
  eexists. split; [reflexivity|].
  rewrite length_map. apply nlargest_length. exact Hn.
Qed.

(** C5: on a Dataset, whose (country, date) keys are unique, and for a
    bound [top_n >= 0], the Top-N ranking of a valid metric has exactly
    [min(top_n, number of distinct countries at the latest date)] rows. *)
Theorem create_top_countries_chart_size
  (df : DataFrame) (metric : string) (c : column) (cells : Row -> Z)
  (top_n : Z)
  (Hcol : column_of_name metric = Some c)
  (Hcells : ordered_cells c = Some cells)
  (Hn : 0 <= top_n)
  (Hkeys : unique_keys df) :
  exists top,
    create_top_countries_chart df metric top_n = Returned top /\
    Z.of_nat (length top)
    = Z.min top_n (Z.of_nat (length (distinct_countries (latest_rows df)))).
Proof.
  destruct (create_top_countries_chart_rows df metric c cells top_n
              Hcol Hcells Hn) as [top [Htop Hlen]].
  exists top. split; [exact Htop|].
  rewrite (latest_rows_distinct_countries df Hkeys).
  unfold col. rewrite length_map. exact Hlen.
Qed.

(** * Case-fatality-rate ranking *)


(** * Vaccination ranking *)

Lemma vaccination_chart_pipeline (df : DataFrame) :
  create_vaccination_chart df =
  match filter (fun ir => 0 <? total_vaccinations (snd ir)) df with
  | [] => None
  | vacc_data =>
      Some (nlargest Z.ltb (fun ir : nat * Row => total_vaccinations (snd ir))
                     20 (latest_rows vacc_data))
  end.
Proof.
  unfold create_vaccination_chart, col.
  rewrite (map_map (fun ir : nat * Row => total_vaccinations (snd ir))
                   (fun v => v >? 0)).
  rewrite select_map.
  rewrite (filter_ext _ (fun ir => 0 <? total_vaccinations (snd ir)));
    [|intro ir; apply Z.gtb_ltb].
  destruct (filter _ df) as [|x vacc_data] eqn:E; [reflexivity|].
  fold (col date (x :: vacc_data)). rewrite select_latest. reflexivity.
Qed.

(** C10: the vaccination ranking is [None] exactly when no row has
    [total_vaccinations > 0]; otherwise it ranks, never as an empty
    ranking, rows of the latest date among the rows with
    [total_vaccinations > 0], 20 of them at most; and that date can be
    earlier than the latest date of the whole Dataset. *)
Theorem create_vaccination_chart_latest :
  (forall df : DataFrame,
     let vacc_rows := filter (fun ir => 0 <? total_vaccinations (snd ir)) df in
     (vacc_rows = [] <-> create_vaccination_chart df = None) /\
     create_vaccination_chart df <> Some [] /\
     (forall top, create_vaccination_chart df = Some top ->
        exists d : Z,
          is_latest_date vacc_rows d /\
          (forall ir, In ir top ->
             In ir df /\ date (snd ir) = d /\ 0 < total_vaccinations (snd ir)) /\
          Z.of_nat (length top)
          = Z.min 20 (Z.of_nat (length (rows_on d vacc_rows))))) /\
  (exists (df : DataFrame) (d dv : Z) (top : DataFrame),
     is_latest_date df d /\
     create_vaccination_chart df = Some top /\
     (forall ir, In ir top -> date (snd ir) = dv) /\
     top <> [] /\ dv < d).
Proof.
  split.
  - intro df. cbv zeta. rewrite vaccination_chart_pipeline.
    remember (filter (fun ir => 0 <? total_vaccinations (snd ir)) df)
      as vd eqn:E.
    destruct vd as [|x vacc_data].
    + split; [tauto|]. split; [discriminate|]. discriminate.
    + remember (x :: vacc_data) as vd eqn:Evd.
      assert (Hne : vd <> []) by (subst vd; discriminate).
      replace (match vd with [] => None | _ :: _ =>
                 Some (nlargest Z.ltb
                         (fun ir : nat * Row => total_vaccinations (snd ir))
                         20 (latest_rows vd)) end)
        with (Some (nlargest Z.ltb
                      (fun ir : nat * Row => total_vaccinations (snd ir))
                      20 (latest_rows vd)))
        by (subst vd; reflexivity).
      pose proof (nlargest_length Z.ltb
                    (fun ir : nat * Row => total_vaccinations (snd ir))
                    20 (latest_rows vd)) as Hlen.
      split; [split; [congruence | discriminate]|]. split.
      * intro H. injection H as H. rewrite H in Hlen. simpl in Hlen.
        apply latest_rows_nonempty in Hne.
        destruct (latest_rows vd); [congruence | simpl in Hlen; lia].
      * intros top H. injection H as <-.
        destruct (series_max_nonempty (col date vd)) as [d Hd];
          [subst vd; discriminate|].
        apply max_is_latest_date in Hd. exists d.
        rewrite (latest_rows_on _ _ Hd) in *.
        split; [exact Hd|]. split; [|apply Hlen; lia].
        intros ir Hir. apply nlargest_incl, filter_In in Hir.
        destruct Hir as [Hir Hdate]. apply Z.eqb_eq in Hdate.
        rewrite E in Hir.
        apply filter_In in Hir. destruct Hir as [Hir Hv].
        apply Z.ltb_lt in Hv. auto.
  - exists (DataFrame_of [mkRow "A" 1 10 0 5 10 0; mkRow "A" 2 20 0 0 10 0]).
    exists 2, 1. eexists.
    split.
    { split; [right; left; reflexivity|]. simpl.
      repeat (apply Forall_cons; [lia|]). apply Forall_nil. }
    split; [reflexivity|].
    split; [|split; [discriminate | lia]].
    intros ir [<-|[]]. reflexivity.
Qed.

(** * Global daily trend *)








(** * Filter *)

(** The rows the controls ask for. *)
Lemma filtered_view_filter (df : DataFrame) (start_date end_date : Z)
  (selected : list string) (metric : string) :
  filtered_view df [start_date; end_date] selected metric =
  filter (in_view start_date end_date selected) df.
Proof.
  assert (Hdate :
    df_filtered df [start_date; end_date] =
    filter (fun ir =>
              (start_date <=? date (snd ir)) && (date (snd ir) <=? end_date)) df).
  { unfold df_filtered, col. rewrite !map_map, mask_and_map, select_map.
    apply filter_ext. intro ir. rewrite Z.geb_leb. reflexivity. }
  unfold filtered_view, in_view. rewrite Hdate.
  destruct selected as [|s selected].
  - apply filter_ext. intro ir. rewrite andb_true_r. reflexivity.
  - unfold create_country_comparison_chart, isin, col.
    rewrite map_map, select_map, filter_filter.
    apply filter_ext. intro ir. f_equal.
    destruct (in_dec string_dec (country (snd ir)) (s :: selected)) as [Hin|Hout].
    + apply existsb_exists. exists (country (snd ir)).
      split; [exact Hin | apply String.eqb_refl].
    + destruct (existsb _ (s :: selected)) eqn:E; [|reflexivity].
      apply existsb_exists in E. destruct E as [x [Hx Ex]].
      apply String.eqb_eq in Ex. subst x. contradiction.
Qed.

Lemma in_view_spec (start_date end_date : Z) (selected : list string)
  (ir : nat * Row) :
  in_view start_date end_date selected ir = true <->
  start_date <= date (snd ir) <= end_date /\
  (selected = [] \/ In (country (snd ir)) selected).
Proof.
  unfold in_view. rewrite !andb_true_iff, !Z.leb_le.
  destruct selected as [|s selected].
  - intuition.
  - destruct (in_dec string_dec (country (snd ir)) (s :: selected)).
    + intuition.
    + intuition; discriminate.
Qed.

(** C6: for an inclusive date interval and a country selection (none
    selected meaning all countries), the filtered view consists of exactly
    the rows of the Dataset that lie in the interval and in the selection,
    in the Dataset's order: it is a subsequence of the Dataset.  A view with
    no row is returned like any other. *)
Theorem filtered_view_subsequence (df : DataFrame)
  (start_date end_date : Z) (selected : list string) (metric : string) :
  let view := filtered_view df [start_date; end_date] selected metric in
  view = filter (in_view start_date end_date selected) df /\
  (forall ir, In ir view <->
     In ir df /\
     start_date <= date (snd ir) <= end_date /\
     (selected = [] \/ In (country (snd ir)) selected)) /\
  subsequence view df /\
  ((forall ir, In ir df -> in_view start_date end_date selected ir = false) ->
   view = []).
Proof.
  cbv zeta. rewrite filtered_view_filter.
  split; [reflexivity|]. split; [|split].
  - intro ir. rewrite filter_In, in_view_spec. reflexivity.
  - apply filter_subsequence.
  - intro Hnone. induction df as [|ir df IH]; simpl; [reflexivity|].
    rewrite (Hnone ir (or_introl eq_refl)). apply IH.
    intros x Hx. apply Hnone. right. exact Hx.
Qed.

(** * Instances on the sample Dataset *)

Example calculate_global_stats_sample :
  calculate_global_stats sample_df
  = Returned (Stats.mk 8000 110 0 1170 43 (Some 2)).
Proof. reflexivity. Qed.

Example create_global_trend_chart_sample :
  create_global_trend_chart sample_df
  = [Daily.mk 1 90 3 2900 40; Daily.mk 2 1170 43 8000 110].
Proof. reflexivity. Qed.

Example filtered_view_sample :
  map fst (filtered_view sample_df [2; 2] ["India"; "Brazil"] "total_cases")
  = [1%nat; 4%nat].
Proof. reflexivity. Qed.

(** Brazil and India tie on [total_deaths] on day 2; Brazil comes first in
    the Dataset and in the ranking. *)
Example create_top_countries_chart_sample :
  create_top_countries_chart sample_df "total_deaths" default_top_n
  = Returned [(3%nat, ("France", 50)); (1%nat, ("Brazil", 30));
              (4%nat, ("India", 30))].
Proof. reflexivity. Qed.

Example create_top_countries_chart_object_column :
  create_top_countries_chart sample_df "country" default_top_n
  = Raised TypeError.
Proof. reflexivity. Qed.

Example create_vaccination_chart_sample :
  option_map (map fst) (create_vaccination_chart sample_df) = Some [2%nat].
Proof. reflexivity. Qed.

Example create_case_fatality_rate_chart_sample :
  map (fun e => (fst (fst e), snd e))
      (create_case_fatality_rate_chart sample_df)
  = [(1%nat, Fin 2); (3%nat, Fin 2); (4%nat, Fin (3 # 4))].
Proof. reflexivity. Qed.

(** Outside the key invariant the ranking counts rows, not countries. *)
Remark create_top_countries_chart_duplicated :
  create_top_countries_chart duplicated_df "total_cases" default_top_n
  = Returned [(1%nat, ("Brazil", 950)); (0%nat, ("Brazil", 900))] /\
  distinct_countries (latest_rows duplicated_df) = ["Brazil"].
Proof. split; reflexivity. Qed.


(** C3, as the specification words it, fails: ["population"] is not a
    column, and the ranking of the sample Dataset by it does not raise
    [InvalidMetric]. *)
Lemma create_top_countries_chart_not_InvalidMetric :
  column_of_name "population" = None /\
  create_top_countries_chart sample_df "population" default_top_n
  <> Raised InvalidMetric.
Proof. split; [reflexivity | discriminate]. Qed.

Lemma create_top_countries_chart_unknown_metric_sample :
  column_of_name "population" = None /\
  create_top_countries_chart sample_df "population" default_top_n
  = Raised (KeyError "population").
Proof.
  split; [reflexivity|].
  apply (create_top_countries_chart_unknown_metric
           sample_df "population" default_top_n).
  reflexivity.
Defined.


Lemma create_top_countries_chart_size_sample :
  column_of_name "total_cases" = Some TotalCases /\
  ordered_cells TotalCases = Some total_cases /\
  0 <= default_top_n /\
  unique_keys sample_df /\
  exists top,
    create_top_countries_chart sample_df "total_cases" default_top_n
    = Returned top /\
    Z.of_nat (length top)
    = Z.min default_top_n
            (Z.of_nat (length (distinct_countries (latest_rows sample_df)))).
Proof.
  assert (Hn : 0 <= default_top_n) by (unfold default_top_n; lia).
  assert (Hkeys : unique_keys sample_df).
  { unfold unique_keys. simpl.
    repeat (apply NoDup_cons;
            [simpl; intro H; repeat (destruct H as [H|H]; [discriminate|]);
             exact H|]).
    apply NoDup_nil. }
  split; [reflexivity|]. split; [reflexivity|].
  split; [exact Hn|]. split; [exact Hkeys|].
  apply (create_top_countries_chart_size sample_df "total_cases"
           TotalCases total_cases default_top_n eq_refl eq_refl Hn Hkeys).
Defined.


(** * Sorting in ascending order *)

Lemma sort_desc_fixed {A K : Type} (ltb : K -> K -> bool) (key : A -> K)
  (l : list A) :
  StronglySorted (not_below ltb key) l -> sort_desc ltb key l = l.
Proof.
  induction 1 as [|x l Hs IH Hall]; simpl; [reflexivity|].
  rewrite IH. destruct l as [|y l]; [reflexivity|]. simpl.
  apply Forall_inv in Hall. unfold not_below in Hall.
  rewrite Hall. reflexivity.
Qed.

Section SortValuesFacts.
Context {A K : Type} (ltb : K -> K -> bool) (key : A -> K).

Hypothesis ltb_asym : forall a b, ltb a b = true -> ltb b a = false.
Hypothesis ltb_negtrans :
  forall a b c, ltb a b = false -> ltb b c = false -> ltb a c = false.

Lemma flip_asym (a b : K) : ltb b a = true -> ltb a b = false.
Proof. apply ltb_asym. Qed.

Lemma flip_negtrans (a b c : K) :
  ltb b a = false -> ltb c b = false -> ltb c a = false.
Proof. intros H1 H2. exact (ltb_negtrans c b a H2 H1). Qed.

Lemma sort_values_perm (l : list A) : Permutation (sort_values ltb key l) l.
Proof. apply sort_desc_perm. Qed.

(** No row of the result has a smaller key than a row before it. *)
Lemma sort_values_sorted (l : list A) :
  StronglySorted (fun x y => ltb (key y) (key x) = false)
                 (sort_values ltb key l).
Proof.
  apply (sort_desc_sorted (fun a b => ltb b a) key flip_asym flip_negtrans).
Qed.

(** Rows with equal keys stay in the order of their labels. *)
Lemma sort_values_stable (label : A -> nat) (l : list A) :
  StronglySorted (label_lt label) l ->
  StronglySorted
    (fun x y => ltb (key x) (key y) = true \/
                (ltb (key y) (key x) = false /\ label_lt label x y))
    (sort_values ltb key l).
Proof.
  apply (sort_desc_stable (fun a b => ltb b a) key flip_asym flip_negtrans).
Qed.

(** A frame that is in order already is left as it is. *)
Lemma sort_values_fixed (l : list A) :
  StronglySorted (fun x y => ltb (key y) (key x) = false) l ->
  sort_values ltb key l = l.
Proof. apply (sort_desc_fixed (fun a b => ltb b a) key). Qed.
End SortValuesFacts.

(** * Order of strings and of sort keys *)

Lemma string_compare_refl (s : string) : String.compare s s = Eq.
Proof. apply OrderedTypeEx.String_as_OT.cmp_eq. reflexivity. Qed.

Lemma string_compare_lt_trans (a b c : string) :
  String.compare a b = Lt -> String.compare b c = Lt ->
  String.compare a c = Lt.
Proof.
  intros H1 H2.
  apply OrderedTypeEx.String_as_OT.cmp_lt in H1, H2.
  apply OrderedTypeEx.String_as_OT.cmp_lt.
  eapply OrderedTypeEx.String_as_OT.lt_trans; eassumption.
Qed.

Lemma string_compare_gt (a b : string) :
  String.compare a b = Gt <-> String.compare b a = Lt.
Proof.
  rewrite (String.compare_antisym a b).
  destruct (String.compare b a); simpl; split; congruence.
Qed.

Lemma string_ltb_asym (a b : string) :
  String.ltb a b = true -> String.ltb b a = false.
Proof.
  unfold String.ltb. rewrite (String.compare_antisym b a).
  destruct (String.compare a b); simpl; congruence.
Qed.

Lemma string_ltb_negtrans (a b c : string) :
  String.ltb a b = false -> String.ltb b c = false -> String.ltb a c = false.
Proof.
  unfold String.ltb. intros H1 H2.
  destruct (String.compare a b) eqn:Eab; [|discriminate|].
  - apply String.compare_eq_iff in Eab. subst b. exact H2.
  - destruct (String.compare b c) eqn:Ebc; [|discriminate|].
    + apply String.compare_eq_iff in Ebc. subst c. rewrite Eab. reflexivity.
    + apply string_compare_gt in Eab, Ebc.
      pose proof (string_compare_lt_trans _ _ _ Ebc Eab) as H.
      apply string_compare_gt in H. rewrite H. reflexivity.
Qed.

Lemma key_ltb_asym (a b : string * Z) :
  key_ltb a b = true -> key_ltb b a = false.
Proof.
  unfold key_ltb. rewrite (String.compare_antisym (fst b) (fst a)).
  destruct (String.compare (fst a) (fst b)); simpl; [|reflexivity|discriminate].
  rewrite Z.ltb_lt, Z.ltb_ge. lia.
Qed.

Lemma key_ltb_negtrans (a b c : string * Z) :
  key_ltb a b = false -> key_ltb b c = false -> key_ltb a c = false.
Proof.
  unfold key_ltb. intros H1 H2.
  destruct (String.compare (fst a) (fst b)) eqn:Eab; [|discriminate|].
  - apply String.compare_eq_iff in Eab. rewrite Eab.
    destruct (String.compare (fst b) (fst c)); [|discriminate|reflexivity].
    rewrite Z.ltb_ge in *. lia.
  - destruct (String.compare (fst b) (fst c)) eqn:Ebc; [|discriminate|].
    + apply String.compare_eq_iff in Ebc. rewrite <- Ebc, Eab. reflexivity.
    + apply string_compare_gt in Eab, Ebc.
      pose proof (string_compare_lt_trans _ _ _ Ebc Eab) as H.
      apply string_compare_gt in H. rewrite H. reflexivity.
Qed.

Lemma key_ltb_irrefl (a : string * Z) : key_ltb a a = false.
Proof. unfold key_ltb. rewrite string_compare_refl. apply Z.ltb_irrefl. Qed.

Lemma key_le_ltb (a b : string * Z) : key_le a b <-> key_ltb b a = false.
Proof.
  unfold key_le, key_ltb. split.
  - intros [H|[E H]].
    + apply string_compare_gt in H. rewrite H. reflexivity.
    + rewrite E, string_compare_refl. apply Z.ltb_ge. exact H.
  - destruct (String.compare (fst b) (fst a)) eqn:E; intro H.
    + right. apply String.compare_eq_iff in E. apply Z.ltb_ge in H. auto.
    + discriminate.
    + left. apply string_compare_gt. exact E.
Qed.

Lemma key_le_neq_lt (a b : string * Z) : key_le a b -> a <> b -> key_lt a b.
Proof.
  destruct a as [ca da], b as [cb db]. unfold key_le, key_lt. simpl.
  intros [H|[E H]] N; [left; exact H|]. right. split; [exact E|].
  assert (da <> db) by congruence. lia.
Qed.

(** * The loader *)

Lemma combine_seq_nth {A : Type} (l : list A) (s i : nat) (x : A) :
  nth_error l i = Some x -> In ((s + i)%nat, x) (combine (seq s (length l)) l).
Proof.
  revert s i. induction l as [|y l IH]; intros s i H.
  - destruct i; discriminate.
  - destruct i as [|i]; simpl in *.
    + injection H as ->. left. f_equal. lia.
    + right. replace (s + S i)%nat with (S s + i)%nat by lia.
      apply IH. exact H.
Qed.

Lemma combine_seq_fst {A : Type} (l : list A) (s : nat) :
  map fst (combine (seq s (length l)) l) = seq s (length l).
Proof.
  revert s. induction l as [|y l IH]; intro s; simpl; [reflexivity|].
  rewrite IH. reflexivity.
Qed.

Lemma combine_seq_snd {A : Type} (l : list A) (s : nat) :
  map snd (combine (seq s (length l)) l) = l.
Proof.
  revert s. induction l as [|y l IH]; intro s; simpl; [reflexivity|].
  rewrite IH. reflexivity.
Qed.

Lemma StronglySorted_snd {A B : Type} (R : B -> B -> Prop)
  (l : list (A * B)) :
  StronglySorted R (map snd l) ->
  StronglySorted (fun a b => R (snd a) (snd b)) l.
Proof.
  induction l as [|x l IH]; simpl; intro H; [constructor|].
  apply StronglySorted_inv in H. destruct H as [Hs Hall].
  constructor; [apply IH; exact Hs|].
  rewrite Forall_forall in *. intros y Hy. apply Hall.
  apply in_map. exact Hy.
Qed.

Lemma StronglySorted_weaken {A : Type} (R S : A -> A -> Prop) (l : list A) :
  (forall x y, R x y -> S x y) -> StronglySorted R l -> StronglySorted S l.
Proof.
  intros HRS H. rewrite <- (map_id l).
  apply (StronglySorted_map R S (fun x => x)); assumption.
Qed.

(** What the loader returns, in terms of the parsed rows. *)
Lemma load_data_returned (rows : list RawRow) :
  exists sorted_rows : list (nat * RawRow),
    load_data (Returned rows)
    = Some (map (fun ir => (fst ir, fill_row (snd ir))) sorted_rows) /\
    Permutation sorted_rows (combine (seq 0 (length rows)) rows) /\
    StronglySorted (fun x y => key_le (raw_key x) (raw_key y)) sorted_rows /\
    StronglySorted
      (fun x y => key_ltb (raw_key x) (raw_key y) = true \/
                  (fst x < fst y)%nat) sorted_rows.
Proof.
  eexists. split; [reflexivity|]. split; [|split].
  - apply sort_values_perm.
  - eapply StronglySorted_weaken;
      [|apply (sort_values_sorted key_ltb raw_key
                 key_ltb_asym key_ltb_negtrans)].
    intros x y H. apply key_le_ltb. exact H.
  - eapply StronglySorted_weaken;
      [|apply (sort_values_stable key_ltb raw_key
                 key_ltb_asym key_ltb_negtrans fst), combine_seq_sorted].
    intros x y [H|[_ H]]; [left; exact H | right; exact H].
Qed.

Lemma fill_row_key (ir : nat * RawRow) :
  row_key (fst ir, fill_row (snd ir)) = raw_key ir.
Proof. reflexivity. Qed.

Lemma fill_row_reread (r : Row) : fill_row (reread r) = r.
Proof. destruct r. reflexivity. Qed.

(** The loader returns [None] exactly when reading the file raised.
    Otherwise it returns a frame with one row for each parsed row: the row
    labelled [i] is the [i]-th parsed row with its empty numeric cells
    replaced by 0, each label occurs once, and no other row appears. *)
Theorem load_data_rows :
  (forall read_csv,
     load_data read_csv = None <-> exists e, read_csv = Raised e) /\
  (forall rows : list RawRow,
     exists df,
       load_data (Returned rows) = Some df /\
       length df = length rows /\
       NoDup (map fst df) /\
       (forall i r, In (i, r) df <->
          exists x, nth_error rows i = Some x /\ r = fill_row x)).
Proof.
  split.
  - intros [rows|e]; simpl; split.
    + discriminate.
    + intros [e H]. discriminate.
    + intros _. eauto.
    + reflexivity.
  - intro rows.
    destruct (load_data_returned rows) as [S [Hload [Hperm _]]].
    eexists. split; [exact Hload|]. split; [|split].
    + rewrite length_map, (Permutation_length Hperm), length_combine,
        length_seq. apply Nat.min_id.
    + rewrite map_map. simpl.
      apply (Permutation_NoDup
               (Permutation_sym (Permutation_map fst Hperm))).
      rewrite combine_seq_fst. apply seq_NoDup.
    + intros i r. rewrite in_map_iff. split.
      * intros [[j x] [E Hin]]. simpl in E. injection E as -> <-.
        apply (Permutation_in _ Hperm), combine_seq_In in Hin.
        rewrite Nat.sub_0_r in Hin. exists x. tauto.
      * intros [x [Hx ->]]. exists (i, x). split; [reflexivity|].
        apply (Permutation_in _ (Permutation_sym Hperm)).
        apply (combine_seq_nth rows 0). exact Hx.
Qed.

(** The frame the loader returns is in ascending order of country and,
    within a country, of date. *)
Theorem load_data_sorted (rows : list RawRow) :
  exists df,
    load_data (Returned rows) = Some df /\
    StronglySorted (fun a b => key_le (row_key a) (row_key b)) df.
Proof.
  destruct (load_data_returned rows) as [S [Hload [_ [Hsorted _]]]].
  eexists. split; [exact Hload|].
  eapply StronglySorted_map; [|exact Hsorted].
  intros x y H. exact H.
Qed.

(** Sorting is stable: of two loaded rows with the same country and date,
    the one that comes first in the file comes first in the frame. *)
Theorem load_data_stable (rows : list RawRow) :
  exists df,
    load_data (Returned rows) = Some df /\
    forall i j a b, (i < j)%nat ->
      nth_error df i = Some a -> nth_error df j = Some b ->
      row_key a = row_key b -> (fst a < fst b)%nat.
Proof.
  destruct (load_data_returned rows) as [S [Hload [_ [_ Hstable]]]].
  eexists. split; [exact Hload|].
  intros i j a b Hij Ha Hb Hkey.
  rewrite nth_error_map in Ha, Hb.
  destruct (nth_error S i) as [x|] eqn:Ex; [|discriminate].
  destruct (nth_error S j) as [y|] eqn:Ey; [|discriminate].
  injection Ha as <-. injection Hb as <-.
  rewrite !fill_row_key in Hkey. simpl.
  destruct (StronglySorted_nth_error _ _ Hstable i j x y Hij Ex Ey)
    as [H|H]; [|exact H].
  rewrite Hkey, key_ltb_irrefl in H. discriminate.
Qed.

(** A file with one row per (country, date) loads into a frame that keeps
    that invariant and is in strictly ascending key order. *)
Theorem load_data_unique_keys (rows : list RawRow)
  (Hkeys : NoDup (map (fun r => (raw_country r, raw_date r)) rows)) :
  exists df,
    load_data (Returned rows) = Some df /\
    unique_keys df /\
    StronglySorted (fun a b => key_lt (row_key a) (row_key b)) df.
Proof.
  destruct (load_data_returned rows) as [S [Hload [Hperm [Hsorted _]]]].
  eexists. split; [exact Hload|].
  assert (Hnd : NoDup (map raw_key S)).
  { apply (Permutation_NoDup
             (Permutation_sym (Permutation_map raw_key Hperm))).
    unfold raw_key.
    rewrite <- (map_map snd (fun r => (raw_country r, raw_date r))).
    rewrite combine_seq_snd. exact Hkeys. }
  split.
  - unfold unique_keys. rewrite map_map. exact Hnd.
  - apply (StronglySorted_map
             (fun x y => key_lt (raw_key x) (raw_key y)));
      [intros x y H; exact H|].
    clear Hload Hperm. induction Hsorted as [|x S Hs IH Hall].
    + constructor.
    + simpl in Hnd. apply NoDup_cons_iff in Hnd. destruct Hnd as [Hx Hnd].
      constructor; [apply IH; exact Hnd|].
      rewrite Forall_forall in *. intros y Hy.
      apply key_le_neq_lt; [apply Hall; exact Hy|].
      intro E. apply Hx. rewrite E. apply in_map. exact Hy.
Qed.

Lemma load_data_unique_keys_sample :
  NoDup (map (fun r => (raw_country r, raw_date r)) sample_raw) /\
  exists df,
    load_data (Returned sample_raw) = Some df /\
    unique_keys df /\
    StronglySorted (fun a b => key_lt (row_key a) (row_key b)) df.
Proof.
  assert (H : NoDup (map (fun r => (raw_country r, raw_date r)) sample_raw)).
  { simpl.
    repeat (apply NoDup_cons;
            [simpl; intro H; repeat (destruct H as [H|H]; [discriminate|]);
             exact H|]).
    apply NoDup_nil. }
  split; [exact H | exact (load_data_unique_keys sample_raw H)].
Defined.

(** Loading is idempotent: reading the loaded rows again, every cell now
    present, returns the same rows in the same order. *)
Theorem load_data_idempotent (rows : list RawRow) :
  exists df,
    load_data (Returned rows) = Some df /\
    option_map (map snd)
               (load_data (Returned (map reread (map snd df))))
    = Some (map snd df).
Proof.
  destruct (load_data_returned rows) as [S [Hload [_ [HS _]]]].
  eexists. split; [exact Hload|].
  set (df := map (fun ir : nat * RawRow => (fst ir, fill_row (snd ir))) S).
  assert (Hsorted :
    StronglySorted (fun a b => key_le (row_key a) (row_key b)) df).
  { eapply StronglySorted_map; [|exact HS]. intros x y H. exact H. }
  set (again := map reread (map snd df)).
  assert (Hfixed :
    sort_values key_ltb raw_key (combine (seq 0 (length again)) again)
    = combine (seq 0 (length again)) again).
  { apply sort_values_fixed.
    apply (StronglySorted_weaken
             (fun x y => key_le (raw_key x) (raw_key y)));
      [intros x y H; apply key_le_ltb; exact H|].
    apply (StronglySorted_snd
             (fun r1 r2 : RawRow =>
                key_le (raw_country r1, raw_date r1)
                       (raw_country r2, raw_date r2))).
    rewrite combine_seq_snd. unfold again. rewrite map_map.
    eapply StronglySorted_map; [|exact Hsorted].
    intros x y H. exact H. }
  unfold load_data. cbv zeta. rewrite Hfixed. simpl.
  rewrite map_map. simpl.
  rewrite <- (map_map snd fill_row), combine_seq_snd.
  unfold again. rewrite !map_map. f_equal.
  apply map_ext. intros [i r]. apply fill_row_reread.
Qed.

(** * Sums over permuted frames *)





(** * The snapshot and the daily series *)







(** * Conservation of sums in the daily series *)








(** * How the filters compose *)

Lemma df_filtered_filter (df : DataFrame) (a b : Z) :
  df_filtered df [a; b]
  = filter (fun ir => (a <=? date (snd ir)) && (date (snd ir) <=? b)) df.
Proof.
  unfold df_filtered, col. rewrite !map_map, mask_and_map, select_map.
  apply filter_ext. intro ir. rewrite Z.geb_leb. reflexivity.
Qed.

Lemma country_chart_filter (df : DataFrame) (countries : list string)
  (metric : string) :
  create_country_comparison_chart df countries metric
  = filter (fun ir => existsb (String.eqb (country (snd ir))) countries) df.
Proof.
  unfold create_country_comparison_chart, isin, col.
  rewrite map_map, select_map. reflexivity.
Qed.

Lemma filter_none {A : Type} (f : A -> bool) (l : list A) :
  (forall x, In x l -> f x = false) -> filter f l = [].
Proof.
  induction l as [|x l IH]; intro H; simpl; [reflexivity|].
  rewrite (H x (or_introl eq_refl)). apply IH.
  intros y Hy. apply H. right. exact Hy.
Qed.

(** Filtering by one date interval and then by another keeps the rows of
    the intersection of the two; an interval whose start is after its end
    keeps no row, without an error. *)
Theorem df_filtered_intersection (df : DataFrame) (a b c d : Z) :
  df_filtered (df_filtered df [a; b]) [c; d]
  = df_filtered df [Z.max a c; Z.min b d] /\
  (b < a -> df_filtered df [a; b] = []).
Proof.
  rewrite !df_filtered_filter, filter_filter. split.
  - apply filter_ext. intro ir.
    apply eq_iff_eq_true. rewrite !andb_true_iff, !Z.leb_le. lia.
  - intro Hba. apply filter_none. intros ir _.
    apply andb_false_iff. rewrite !Z.leb_gt. lia.
Qed.

(** The country filter of the comparison chart and the date filter of
    [main] commute, whatever the date input holds. *)
Theorem country_and_date_filters_commute (df : DataFrame)
  (date_range : list Z) (countries : list string) (metric : string) :
  create_country_comparison_chart (df_filtered df date_range) countries metric
  = df_filtered (create_country_comparison_chart df countries metric)
                date_range.
Proof.
  destruct date_range as [|a [|b [|c r]]]; try reflexivity.
  rewrite !df_filtered_filter, !country_chart_filter, !filter_filter.
  apply filter_ext. intro ir. apply andb_comm.
Qed.

(** * More on the rankings *)

(** For a valid metric the Top-N ranking lists rows of the latest date in
    descending order of the metric, and, for a positive bound, no row of the
    latest date that it leaves out has a larger value than a row it
    lists. *)
Theorem create_top_countries_chart_ranks
  (df : DataFrame) (metric : string) (c : column) (cells : Row -> Z)
  (top_n : Z)
  (Hcol : column_of_name metric = Some c)
  (Hcells : ordered_cells c = Some cells) :
  exists top,
    create_top_countries_chart df metric top_n = Returned top /\
    StronglySorted (fun a b => snd (snd b) <= snd (snd a)) top /\
    (forall e, In e top ->
       exists r, In (fst e, r) (latest_rows df) /\
                 country r = fst (snd e) /\ cells r = snd (snd e)) /\
    (0 < top_n ->
     forall ir e, In ir (latest_rows df) ->
       ~ In (fst ir, (country (snd ir), cells (snd ir))) top ->
       In e top -> cells (snd ir) <= snd (snd e)).
Proof.
  unfold create_top_countries_chart.
  rewrite Hcol, Hcells, select_latest.
  set (key := fun ir : nat * Row => cells (snd ir)).
  set (proj := fun ir : nat * Row => (fst ir, (country (snd ir), cells (snd ir)))).
  eexists. split; [reflexivity|]. split; [|split].
  - apply (StronglySorted_map (not_below Z.ltb key)).
    + intros x y H. unfold not_below, key in H. apply Z.ltb_ge in H. exact H.
    + apply (nlargest_sorted Z.ltb key Zltb_asym Zltb_negtrans).
  - intros e He. apply in_map_iff in He. destruct He as [[i r] [<- Hx]].
    apply nlargest_incl in Hx. exists r. simpl. auto.
  - intros Hn ir e Hir Hout He.
    apply in_map_iff in He. destruct He as [x [<- Hx]]. simpl.
    assert (H : not_below Z.ltb key x ir).
    { apply (nlargest_top Z.ltb key Zltb_asym Zltb_negtrans top_n
               (latest_rows df)); [exact Hn | exact Hx | exact Hir |].
      intro Hin. apply Hout. apply (in_map proj) in Hin. exact Hin. }
    unfold not_below, key in H. apply Z.ltb_ge in H. exact H.
Qed.

Lemma create_top_countries_chart_ranks_sample :
  column_of_name "new_cases" = Some NewCases /\
  ordered_cells NewCases = Some new_cases /\
  exists top,
    create_top_countries_chart sample_df "new_cases" 2 = Returned top /\
    StronglySorted (fun a b => snd (snd b) <= snd (snd a)) top.
Proof.
  split; [reflexivity|]. split; [reflexivity|].
  destruct (create_top_countries_chart_ranks sample_df "new_cases"
              NewCases new_cases 2 eq_refl eq_refl)
    as [top [Htop [Hsorted _]]].
  exists top. split; [exact Htop | exact Hsorted].
Defined.

Lemma nlargest_prefix {A K : Type} (ltb : K -> K -> bool) (key : A -> K)
  (m n : Z) (l : list A) :
  m <= n ->
  nlargest ltb key m l = firstn (Z.to_nat m) (nlargest ltb key n l).
Proof.
  intro Hmn. unfold nlargest.
  destruct (Z.leb_spec m 0) as [Hm|Hm].
  - replace (Z.to_nat m) with 0%nat by lia. reflexivity.
  - destruct (Z.leb_spec n 0) as [Hn|Hn]; [lia|].
    rewrite firstn_firstn. f_equal. lia.
Qed.

(** A ranking with a smaller bound is the beginning of the ranking with a
    larger bound; a bound of zero or less gives the empty ranking.  For a
    name that cannot be ranked both calls raise the same exception. *)
Theorem create_top_countries_chart_prefix
  (df : DataFrame) (metric : string) (m n : Z) (Hmn : m <= n) :
  create_top_countries_chart df metric m
  = outcome_map (firstn (Z.to_nat m))
                (create_top_countries_chart df metric n).
Proof.
  unfold create_top_countries_chart.
  destruct (column_of_name metric) as [c|]; [|reflexivity].
  destruct (ordered_cells c) as [cells|]; [|reflexivity].
  simpl. f_equal.
  rewrite (nlargest_prefix _ _ m n _ Hmn). symmetry. apply firstn_map.
Qed.

Lemma create_top_countries_chart_prefix_sample :
  2 <= default_top_n /\
  create_top_countries_chart sample_df "total_cases" 2
  = outcome_map (firstn (Z.to_nat 2))
                (create_top_countries_chart sample_df "total_cases"
                                            default_top_n).
Proof.
  assert (H : 2 <= default_top_n) by (unfold default_top_n; lia).
  split; [exact H|].
  exact (create_top_countries_chart_prefix sample_df "total_cases"
           2 default_top_n H).
Defined.







(** * The controls of [main] *)

Lemma existsb_eqb_In (x : string) (l : list string) :
  existsb (String.eqb x) l = true <-> In x l.
Proof.
  rewrite existsb_exists. split.
  - intros [y [Hy E]]. apply String.eqb_eq in E. subst y. exact Hy.
  - intro H. exists x. split; [exact H | apply String.eqb_refl].
Qed.

Lemma unique_seen_In (seen s : list string) (x : string) :
  In x (unique_seen seen s) <-> In x s /\ ~ In x seen.
Proof.
  revert seen. induction s as [|y s IH]; intro seen; simpl; [tauto|].
  destruct (existsb (String.eqb y) seen) eqn:E.
  - apply existsb_eqb_In in E. rewrite IH.
    split; [tauto|]. intros [[->|H] Hn]; [contradiction | tauto].
  - assert (Hy : ~ In y seen).
    { intro H. apply existsb_eqb_In in H. congruence. }
    simpl. rewrite IH. simpl.
    destruct (string_dec y x) as [->|N]; [tauto|]. tauto.
Qed.

Lemma unique_seen_NoDup (seen s : list string) : NoDup (unique_seen seen s).
Proof.
  revert seen. induction s as [|y s IH]; intro seen; simpl; [constructor|].
  destruct (existsb (String.eqb y) seen); [apply IH|].
  constructor; [|apply IH].
  rewrite unique_seen_In. simpl. tauto.
Qed.

Lemma countries_of_In (df : DataFrame) (c : string) :
  In c (countries_of df) <-> In c (col country df).
Proof.
  unfold countries_of, sorted, unique. split; intro H.
  - apply (Permutation_in _ (sort_values_perm String.ltb _ _)) in H.
    apply unique_seen_In in H. tauto.
  - apply (Permutation_in _ (Permutation_sym (sort_values_perm String.ltb _ _))).
    apply unique_seen_In. simpl. tauto.
Qed.

(** The options of the country selector are the countries of the frame,
    each once, in strictly ascending order. *)
Theorem countries_of_sorted_distinct (df : DataFrame) :
  StronglySorted (fun a b => String.compare a b = Lt) (countries_of df) /\
  (forall c, In c (countries_of df) <-> In c (col country df)).
Proof.
  split; [|apply countries_of_In].
  unfold countries_of, sorted.
  set (names := unique (col country df)).
  assert (Hnd : NoDup (sort_values String.ltb (fun x : string => x) names)).
  { apply (Permutation_NoDup
             (Permutation_sym (sort_values_perm String.ltb _ names))).
    apply unique_seen_NoDup. }
  pose proof (sort_values_sorted String.ltb (fun x : string => x)
                string_ltb_asym string_ltb_negtrans names) as Hs.
  induction Hs as [|x l Hs IH Hall]; constructor.
  - apply IH. apply NoDup_cons_iff in Hnd. tauto.
  - apply NoDup_cons_iff in Hnd. destruct Hnd as [Hx _].
    rewrite Forall_forall in *. intros y Hy.
    specialize (Hall y Hy). unfold String.ltb in Hall.
    destruct (String.compare y x) eqn:E.
    + apply String.compare_eq_iff in E. subst y. contradiction.
    + discriminate.
    + apply string_compare_gt. exact E.
Qed.

(** The default selection is always among the options it is offered with,
    and has at most five countries. *)
Theorem default_countries_offered (countries : list string) :
  incl (default_countries countries) countries /\
  (length (default_countries countries) <= 5)%nat.
Proof.
  unfold default_countries.
  destruct (forallb _ preferred_countries) eqn:E.
  - split; [|simpl; lia].
    intros c Hc. rewrite forallb_forall in E.
    apply existsb_eqb_In, E, Hc.
  - split.
    + intros c Hc. eapply In_firstn. exact Hc.
    + rewrite length_firstn. lia.
Qed.

(** Selecting every offered country leaves a frame as it is. *)
Theorem create_country_comparison_chart_all (df : DataFrame)
  (metric : string) :
  create_country_comparison_chart df (countries_of df) metric = df.
Proof.
  rewrite country_chart_filter. apply filter_all.
  intros ir Hir. apply existsb_eqb_In, countries_of_In.
  unfold col. apply in_map_iff. exists ir. auto.
Qed.



(** * Instances on the sample file *)

Example load_data_sample :
  option_map (map (fun ir : nat * Row => (fst ir, new_deaths (snd ir))))
             (load_data (Returned sample_raw))
  = Some [(2%nat, 1); (1%nat, 0); (0%nat, 3)].
Proof. reflexivity. Qed.

Example load_data_failed :
  load_data (Raised DataUnavailable) = None.
Proof. reflexivity. Qed.

Example countries_of_sample :
  countries_of sample_df = ["Brazil"; "France"; "India"] /\
  default_countries (countries_of sample_df) = ["Brazil"; "France"; "India"].
Proof. split; reflexivity. Qed.
